(** * A shallow embedding of [app.py], the Streamlit front end over yt-dlp

    The development follows the source file top to bottom: the
    [DownloadProgress] record and [progress_hook], the format catalogue
    built by [get_available_formats], the option dictionary and the file
    name fix-up of [download_video], and the two display helpers
    [format_bytes] and [format_time].

    Conventions of the embedding.
    - Python [int] is [Z]; [//] and [divmod] by a positive divisor are
      [Z.div] and [Z.modulo] (both round towards minus infinity).
    - Python [float] is modelled by the rational it denotes ([Q]); rounding
      of the binary representation is not modelled.
    - Python [str] is [string]; only the ASCII range is interpreted
      ([str.upper] touches the letters a-z only).
    - A dictionary read through [d.get(k)] or [d.get(k, default)] is a record
      with one [option] field per key; [None] stands for an absent key.
    - An exception is the [Raise] case of [result].
    - The module-level [progress_tracker] is passed and returned
      explicitly. *)

From Stdlib Require Import ZArith QArith Qround Qabs String Ascii DecimalString DecimalZ Lia Lqa.
From stdpp Require Import base gmap list strings sorting.

Local Open Scope string_scope.
Local Open Scope Z_scope.
Local Open Scope list_scope.

(** ** Exceptions *)

Inductive exn : Type :=
| ValueError
| ZeroDivisionError
| DownloadError.

Inductive result (A : Type) : Type :=
| Ok (a : A)
| Raise (e : exn).

Arguments Ok {A} a.
Arguments Raise {A} e.

#[global] Instance result_ret : MRet result := λ A a, Ok a.

#[global] Instance result_bind : MBind result := λ A B k r,
  match r with
  | Ok a => k a
  | Raise e => Raise e
  end.

Fixpoint mapR {A B : Type} (f : A → result B) (l : list A) : result (list B) :=
  match l with
  | [] => Ok []
  | a :: l' => b ← f a; bs ← mapR f l'; Ok (b :: bs)
  end.

(** ** Python primitives used by the program *)

(** [str(n)] and [f"{n}"] for an [int]. *)
Definition py_str (n : Z) : string :=
  NilEmpty.string_of_int (Z.to_int n).

(** [int(s)]: an optional sign and at least one decimal digit.  Anything
    else is a [ValueError] (surrounding blanks and underscores between
    digits, which Python also reads, do not occur in this program). *)
Definition py_digits (s : string) : result Z :=
  match s with
  | "" => Raise ValueError
  | _ =>
      match NilEmpty.uint_of_string s with
      | Some d => Ok (Z.of_uint d)
      | None => Raise ValueError
      end
  end.

Definition py_int (s : string) : result Z :=
  match s with
  | String "-"%char s' => n ← py_digits s'; Ok (- n)
  | String "+"%char s' => py_digits s'
  | _ => py_digits s
  end.

(** [s.replace(old, new)]: occurrences of [old] are replaced from the left
    and do not overlap.  [skip] counts the characters of an occurrence
    that has just been replaced and still has to be dropped. *)
Fixpoint replace_from (old new : string) (skip : nat) (s : string) : string :=
  match s with
  | "" => ""
  | String c s' =>
      match skip with
      | S k => replace_from old new k s'
      | O =>
          if String.prefix old s
          then new +:+ replace_from old new (String.length old - 1) s'
          else String c (replace_from old new 0 s')
      end
  end.

(** With an empty [old], Python puts [new] before every character and at
    the end. *)
Fixpoint interleave (new s : string) : string :=
  match s with
  | "" => new
  | String c s' => new +:+ String c (interleave new s')
  end.

Definition py_replace (old new s : string) : string :=
  match old with
  | "" => interleave new s
  | _ => replace_from old new 0 s
  end.

(** [s.upper()] on ASCII. *)
Definition upper_ascii (c : ascii) : ascii :=
  let n := nat_of_ascii c in
  if (97 <=? n)%nat && (n <=? 122)%nat then ascii_of_nat (n - 32) else c.

Fixpoint py_upper (s : string) : string :=
  match s with
  | "" => ""
  | String c s' => String (upper_ascii c) (py_upper s')
  end.

(** [d.get(k, default)]. *)
Definition get {A : Type} (field : option A) (dflt : A) : A :=
  match field with
  | Some a => a
  | None => dflt
  end.

(** [x or y] on integers: [x] when it is truthy (non-zero). *)
Definition or_int (x y : Z) : Z := if x =? 0 then y else x.

(** [x or y] on floats. *)
Definition or_float (x y : Q) : Q := if Qeq_bool x 0 then y else x.

(** [a / b] on two [int]s: true division. *)
Definition truediv (a b : Z) : result Q :=
  if b =? 0 then Raise ZeroDivisionError else Ok (inject_Z a / inject_Z b)%Q.

(** [list.sort(key=..., reverse=True)] once the keys are computed: a stable
    sort by decreasing key.  Elements with equal keys keep their order. *)
Fixpoint insert_desc {A : Type} (x : Z * A) (l : list (Z * A)) : list (Z * A) :=
  match l with
  | [] => [x]
  | y :: l' => if x.1 <? y.1 then y :: insert_desc x l' else x :: y :: l'
  end.

Fixpoint sort_desc {A : Type} (l : list (Z * A)) : list (Z * A) :=
  match l with
  | [] => []
  | x :: l' => insert_desc x (sort_desc l')
  end.

(** The key function is applied to every element first; an exception of
    the key function leaves the sort. *)
Definition sort_by_key_reverse {A : Type} (key : A → result Z) (l : list A)
  : result (list A) :=
  keys ← mapR key l;
  Ok ((sort_desc (zip keys l)).*2).

(** ** The progress record *)

Record DownloadProgress : Type := mkDownloadProgress {
  downloaded_bytes : Z;
  total_bytes : Z;
  speed : Q;
  eta : Z;
  percentage : Q;
  status : string
}.

(** [DownloadProgress()] *)
Definition DownloadProgress_new : DownloadProgress :=
  {| downloaded_bytes := 0; total_bytes := 0; speed := 0; eta := 0;
     percentage := 0; status := "idle" |}.

(** The dictionary yt-dlp hands to a progress hook.  ['status'] is read
    with [d['status']] and is always there. *)
Record progress_event : Type := mkEvent {
  d_status : string;
  d_downloaded_bytes : option Z;
  d_total_bytes : option Z;
  d_total_bytes_estimate : option Z;
  d_speed : option Q;
  d_eta : option Z
}.

Definition progress_hook (d : progress_event) (progress_tracker : DownloadProgress)
  : result DownloadProgress :=
  if String.eqb (d_status d) "downloading" then
    let downloaded := get (d_downloaded_bytes d) 0 in
    let total := or_int (get (d_total_bytes d) 0) (get (d_total_bytes_estimate d) 0) in
    let speed := or_float (get (d_speed d) 0%Q) 0%Q in
    let eta := or_int (get (d_eta d) 0) 0 in
    if 0 <? total then
      ratio ← truediv downloaded total;
      Ok {| downloaded_bytes := downloaded; total_bytes := total;
            speed := speed; eta := eta;
            percentage := (ratio * 100)%Q; status := "downloading" |}
    else
      Ok {| downloaded_bytes := downloaded; total_bytes := total;
            speed := speed; eta := eta;
            percentage := 0%Q; status := "downloading" |}
  else if String.eqb (d_status d) "finished" then
    Ok {| downloaded_bytes := downloaded_bytes progress_tracker;
          total_bytes := total_bytes progress_tracker;
          speed := speed progress_tracker;
          eta := eta progress_tracker;
          percentage := 100%Q; status := "finished" |}
  else if String.eqb (d_status d) "error" then
    Ok {| downloaded_bytes := downloaded_bytes progress_tracker;
          total_bytes := total_bytes progress_tracker;
          speed := speed progress_tracker;
          eta := eta progress_tracker;
          percentage := percentage progress_tracker; status := "error" |}
  else Ok progress_tracker.

(** ** The format catalogue *)

(** One entry of [info['formats']]. *)
Record raw_format : Type := mkRawFormat {
  vcodec : option string;
  height : option Z;
  format_note : option string;
  ext : option string;
  filesize : option Z
}.

(** One entry of the list [get_available_formats] returns. *)
Record format_option : Type := mkFormatOption {
  quality : string;
  format : string;
  note : string;
  size : string
}.

(** The part of the yt-dlp info dictionary the program reads. *)
Record video_info : Type := mkVideoInfo {
  title : option string;
  duration : option Z;
  uploader : option string;
  view_count : option Z;
  thumbnail : option string;
  formats : option (list raw_format)
}.

(** [f.get('vcodec') != 'none' and f.get('height')] *)
Definition has_video (f : raw_format) : bool :=
  negb (bool_decide (vcodec f = Some "none")) &&
  match height f with
  | Some h => negb (h =? 0)
  | None => false
  end.

(** [f" ({filesize // (1024*1024)} MB)" if filesize else ""] *)
Definition size_mb (filesize : option Z) : string :=
  match filesize with
  | Some n =>
      if n =? 0 then "" else " (" +:+ py_str (n / (1024 * 1024)) +:+ " MB)"
  | None => ""
  end.

(** The dictionary appended for a kept entry of height [quality]. *)
Definition format_entry (f : raw_format) (quality : Z) : format_option :=
  {| quality := py_str quality +:+ "p";
     format := py_upper (get (ext f) "");
     note := get (format_note f) "";
     size := size_mb (filesize f) |}.

(** The body of the [for] loop, on the pair of the two locals it updates. *)
Definition visit_format (acc : list format_option * gset Z) (f : raw_format)
  : list format_option * gset Z :=
  let '(formats, seen_qualities) := acc in
  if has_video f then
    match height f with
    | Some quality =>
        if bool_decide (quality ∉ seen_qualities) && (quality <=? 1080)
        then (formats ++ [format_entry f quality], {[quality]} ∪ seen_qualities)
        else acc
    | None => acc
    end
  else acc.

(** [int(x['quality'].replace('p', ''))] *)
Definition quality_key (x : format_option) : result Z :=
  py_int (py_replace "p" "" (quality x)).

Definition get_available_formats (info : video_info) : result (list format_option) :=
  let '(formats, _) :=
    match formats info with
    | Some fs => foldl visit_format ([], ∅) fs
    | None => ([], ∅)
    end in
  sort_by_key_reverse quality_key formats.

(** ** The download *)

(** A post-processor entry of the option dictionary. *)
Record postprocessor : Type := mkPostprocessor {
  key : string;
  preferedformat : string
}.

(** The option dictionary given to [yt_dlp.YoutubeDL]. *)
Record ydl_opts : Type := mkYdlOpts {
  opt_format : string;
  merge_output_format : string;
  outtmpl : string;
  quiet : bool;
  no_warnings : bool;
  noplaylist : bool;
  progress_hooks : list (progress_event → DownloadProgress → result DownloadProgress);
  postprocessors : list postprocessor
}.

(** The format selection of [download_video]. *)
Definition format_selector (quality : string) : string :=
  if String.eqb quality "best" then
    "bestvideo[height<=1080]+bestaudio/best[height<=1080]"
  else
    let height := py_replace "p" "" quality in
    "bestvideo[height<=" +:+ height +:+ "]+bestaudio/best[height<=" +:+ height +:+ "]".

Definition download_opts (quality : string) : ydl_opts :=
  {| opt_format := format_selector quality;
     merge_output_format := "mp4";
     outtmpl := "%(title)s.%(ext)s";
     quiet := true;
     no_warnings := true;
     noplaylist := true;
     progress_hooks := [progress_hook];
     postprocessors :=
       [ {| key := "FFmpegVideoConvertor"; preferedformat := "mp4" |} ] |}.

(** [.replace(".webm", ".mp4").replace(".mkv", ".mp4")] *)
Definition mp4_filename (prepared : string) : string :=
  py_replace ".mkv" ".mp4" (py_replace ".webm" ".mp4" prepared).

(** Every registered hook sees every event, in order; the first exception
    of a hook ends the run. *)
Fixpoint run_hooks
    (hooks : list (progress_event → DownloadProgress → result DownloadProgress))
    (d : progress_event) (tracker : DownloadProgress) : result DownloadProgress :=
  match hooks with
  | [] => Ok tracker
  | hook :: hooks' => tracker' ← hook d tracker; run_hooks hooks' d tracker'
  end.

Fixpoint report_progress
    (hooks : list (progress_event → DownloadProgress → result DownloadProgress))
    (events : list progress_event) (tracker : DownloadProgress)
  : result DownloadProgress :=
  match events with
  | [] => Ok tracker
  | d :: events' =>
      tracker' ← run_hooks hooks d tracker; report_progress hooks events' tracker'
  end.

Section Download.

(** The two yt-dlp calls of [download_video].  [extract_info] is given
    by the progress events it reports while it runs and by its outcome;
    [prepare_filename] by the file name it builds from the output
    template. *)
Variable extract_info : ydl_opts → string → bool → list progress_event * result video_info.
Variable prepare_filename : ydl_opts → video_info → string.

(** The tracker is reset on entry, whatever it held; the value returned
    next to the new tracker is [(filename, info)]. *)
Definition download_video (url quality : string) (progress_tracker : DownloadProgress)
  : result (string * video_info * DownloadProgress) :=
  let progress_tracker := DownloadProgress_new in
  let opts := download_opts quality in
  let '(events, outcome) := extract_info opts url true in
  progress_tracker ← report_progress (progress_hooks opts) events progress_tracker;
  info ← outcome;
  let filename := mp4_filename (prepare_filename opts info) in
  Ok (filename, info, progress_tracker).

End Download.

(** ** Display helpers *)

(** [f"{x:.1f}"]: one digit after the point, the nearest tenth, a tie going
    to the even digit. *)
Definition round_half_even (q : Q) : Z :=
  let fl := Qfloor q in
  let r := (q - inject_Z fl)%Q in
  match (r ?= 1 # 2)%Q with
  | Lt => fl
  | Gt => fl + 1
  | Eq => if Z.even fl then fl else fl + 1
  end.

Definition fmt_1f (x : Q) : string :=
  let tenths := round_half_even (Qabs x * 10)%Q in
  (if Qle_bool 0 x then "" else "-")
    +:+ py_str (tenths / 10) +:+ "." +:+ py_str (tenths mod 10).

(** The [for unit in ...] loop of [format_bytes]; falling off the end
    gives the terabyte line. *)
Fixpoint format_bytes_units (units : list string) (bytes_val : Q) : string :=
  match units with
  | [] => fmt_1f bytes_val +:+ " TB"
  | unit :: units' =>
      if negb (Qle_bool 1024 bytes_val)
      then fmt_1f bytes_val +:+ " " +:+ unit
      else format_bytes_units units' (bytes_val / 1024)%Q
  end.

Definition format_bytes (bytes_val : Q) : string :=
  if Qeq_bool bytes_val 0 then "0 B"
  else format_bytes_units ["B"; "KB"; "MB"; "GB"] bytes_val.

(** [f"{n:02d}"]: at least two characters, filled with zeros on the left;
    a minus sign counts as one of them. *)
Definition fmt_02d (n : Z) : string :=
  if (0 <=? n) && (n <? 10) then "0" +:+ py_str n else py_str n.

(** [seconds] is an [int], so [int(seconds)] leaves it as it is. *)
Definition format_time (seconds : Z) : string :=
  if seconds <=? 0 then "Unknown"
  else
    let '(minutes, seconds) := (seconds / 60, seconds mod 60) in
    let '(hours, minutes) := (minutes / 60, minutes mod 60) in
    if 0 <? hours then
      fmt_02d hours +:+ ":" +:+ fmt_02d minutes +:+ ":" +:+ fmt_02d seconds
    else
      fmt_02d minutes +:+ ":" +:+ fmt_02d seconds.

(** ** The page script *)

(** [f"**{fmt['quality']}** - {fmt['format']}{fmt['size']}"] *)
Definition format_display_text (fmt : format_option) : string :=
  "**" +:+ quality fmt +:+ "** - " +:+ format fmt +:+ size fmt.

Definition format_display (formats : list format_option) : list string :=
  format_display_text <$> formats.

(** [with format_cols[i % 4]: st.markdown(fmt_text)].  A column is the list
    of the texts written into it; [None] is the [IndexError] of a column
    index out of range. *)
Definition write_column (format_cols : list (list string)) (i : nat) (fmt_text : string)
  : option (list (list string)) :=
  col ← format_cols !! (i mod 4)%nat;
  Some (<[(i mod 4)%nat := col ++ [fmt_text]]> format_cols).

(** [for i, fmt_text in enumerate(format_display)], from index [i] on. *)
Fixpoint write_columns (format_cols : list (list string)) (i : nat)
    (texts : list string) : option (list (list string)) :=
  match texts with
  | [] => Some format_cols
  | fmt_text :: texts' =>
      format_cols' ← write_column format_cols i fmt_text;
      write_columns format_cols' (S i) texts'
  end.

(** The [if formats:] block: [st.columns(min(len(formats), 4))] and the
    loop that fills the columns.  Nothing is drawn for an empty list. *)
Definition show_formats (formats : list format_option) : option (list (list string)) :=
  match formats with
  | [] => Some []
  | _ =>
      let format_cols := replicate (Nat.min (length formats) 4) [] in
      write_columns format_cols 0 (format_display formats)
  end.

(** [["best"] + [f"{fmt['quality']}" for fmt in formats]] *)
Definition quality_options (formats : list format_option) : list string :=
  "best" :: (quality <$> formats).

(** ** Vocabulary of the statements *)

(** [s.endswith(suffix)] *)
Fixpoint ends_with (suffix s : string) : bool :=
  String.eqb s suffix ||
  match s with
  | "" => false
  | String _ s' => ends_with suffix s'
  end.

Fixpoint all_chars (P : ascii → bool) (s : string) : bool :=
  match s with
  | "" => true
  | String c s' => P c && all_chars P s'
  end.

Definition is_digit (c : ascii) : bool :=
  let n := nat_of_ascii c in (48 <=? n)%nat && (n <=? 57)%nat.

Definition is_sign_or_digit (c : ascii) : bool :=
  Ascii.eqb c "-" || is_digit c.

Definition not_dot (c : ascii) : bool := negb (Ascii.eqb c ".").

(** The first [k] characters of [s] are not dots. *)
Fixpoint skip_ok (k : nat) (s : string) : bool :=
  match k, s with
  | S k', String c s' => not_dot c && skip_ok k' s'
  | _, _ => true
  end.

(** The statuses the hook acts on. *)
Definition known_status (s : string) : Prop :=
  s ∈ ["downloading"; "finished"; "error"].

#[global] Instance known_status_dec (s : string) : Decision (known_status s).
Proof. unfold known_status. apply _. Defined.

(** The total an event reports: ['total_bytes'] when it is there and not
    zero, otherwise ['total_bytes_estimate'], otherwise zero. *)
Definition reported_total (d : progress_event) : Z :=
  match d_total_bytes d with
  | Some (Z.pos _ as t) | Some (Z.neg _ as t) => t
  | _ =>
      match d_total_bytes_estimate d with
      | Some t => t
      | None => 0
      end
  end.

(** The height an emitted entry stands for, read back from its label the
    way the sort key does. *)
Definition emitted_height (x : format_option) (h : Z) : Prop :=
  quality_key x = Ok h.

(** An entry of the raw list that the loop keeps: it has a video track and
    a height of at most 1080, and no earlier entry that passes the same
    tests has its height. *)
Definition qualifies (f : raw_format) (h : Z) : Prop :=
  has_video f = true ∧ height f = Some h ∧ h ≤ 1080.

Definition kept_at (fs : list raw_format) (i : nat) (f : raw_format) (h : Z) : Prop :=
  fs !! i = Some f ∧ qualifies f h ∧
  ∀ j g, (j < i)%nat → fs !! j = Some g → ¬ qualifies g h.

(** ** The display helpers on the documented examples *)

(** C8: [format_bytes(0)] is "0 B", [format_bytes(1536)] is "1.5 KB" and
    [format_bytes(1073741824)] is "1.0 GB". *)
Theorem format_bytes_examples :
  format_bytes 0 = "0 B" ∧
  format_bytes 1536 = "1.5 KB" ∧
  format_bytes 1073741824 = "1.0 GB".
Proof. repeat split; vm_compute; reflexivity. Qed.

(** C9: [format_time(0)] is "Unknown", [format_time(65)] is "01:05" and
    [format_time(3725)] is "01:02:05". *)
Theorem format_time_examples :
  format_time 0 = "Unknown" ∧
  format_time 65 = "01:05" ∧
  format_time 3725 = "01:02:05".
Proof. repeat split; vm_compute; reflexivity. Qed.

(** ** The progress hook *)

Lemma or_int_reported_total d :
  or_int (get (d_total_bytes d) 0) (get (d_total_bytes_estimate d) 0)
  = reported_total d.
Proof.
  unfold reported_total, or_int, get.
  destruct (d_total_bytes d) as [[|p|p]|]; reflexivity.
Qed.

Lemma truediv_positive a b :
  0 < b → truediv a b = Ok (inject_Z a / inject_Z b)%Q.
Proof.
  intros Hb. unfold truediv.
  destruct (Z.eqb_spec b 0) as [->|_]; [lia | reflexivity].
Qed.

(** A ratio of two integers [0 <= a <= b], [0 < b], scaled by 100. *)
Lemma percentage_bounds a b :
  0 ≤ a → 0 < b → a ≤ b →
  (0 <= inject_Z a / inject_Z b * 100 <= 100)%Q.
Proof.
  intros Ha Hb Hab.
  assert (Hb' : (0 < inject_Z b)%Q).
  { change 0%Q with (inject_Z 0). rewrite <- Zlt_Qlt. exact Hb. }
  assert (Hlo : (0 <= inject_Z a / inject_Z b)%Q).
  { apply Qle_shift_div_l; [exact Hb'|].
    rewrite Qmult_0_l. rewrite Zle_Qle in Ha. exact Ha. }
  assert (Hhi : (inject_Z a / inject_Z b <= 1)%Q).
  { apply Qle_shift_div_r; [exact Hb'|].
    rewrite Qmult_1_l. rewrite Zle_Qle in Hab. exact Hab. }
  split.
  - apply Qmult_le_0_compat; [exact Hlo | discriminate].
  - apply Qle_trans with (1 * 100)%Q; [|discriminate].
    apply Qmult_le_compat_r; [exact Hhi | discriminate].
Qed.

(** C6: a "finished" event leaves the tracker with percentage 100.0 and
    status "finished", whatever byte counts and percentage it held. *)
Theorem progress_hook_finished (d : progress_event) (tracker : DownloadProgress) :
  d_status d = "finished" →
  ∃ tracker',
    progress_hook d tracker = Ok tracker' ∧
    percentage tracker' = 100%Q ∧
    status tracker' = "finished".
Proof.
  intros Hst. unfold progress_hook. rewrite Hst. simpl.
  eexists. split; [reflexivity|]. split; reflexivity.
Qed.

Lemma progress_hook_finished_witness :
  ∃ tracker',
    progress_hook (mkEvent "finished" (Some 7) None None None None)
      (mkDownloadProgress 512 2048 (3 # 2) 9 25 "downloading") = Ok tracker' ∧
    percentage tracker' = 100%Q ∧
    status tracker' = "finished".
Proof. apply progress_hook_finished. reflexivity. Defined.

(** C7: on a "downloading" event whose byte count is not negative and
    does not exceed the reported total, or whose reported total is zero,
    the hook returns and the percentage lies between 0 and 100; with a
    zero total it is 0 and no division takes place. *)
Theorem progress_hook_downloading_percentage
    (d : progress_event) (tracker : DownloadProgress) :
  d_status d = "downloading" →
  0 ≤ get (d_downloaded_bytes d) 0 →
  get (d_downloaded_bytes d) 0 ≤ reported_total d ∨ reported_total d = 0 →
  ∃ tracker',
    progress_hook d tracker = Ok tracker' ∧
    (0 <= percentage tracker' <= 100)%Q ∧
    (reported_total d = 0 → percentage tracker' = 0%Q).
Proof.
  intros Hst Hlo Hhi. unfold progress_hook. rewrite Hst. simpl.
  rewrite or_int_reported_total.
  destruct (Z.ltb_spec 0 (reported_total d)) as [Hpos|Hnpos].
  - rewrite truediv_positive by exact Hpos. simpl.
    eexists. split; [reflexivity|]. simpl. split.
    + apply percentage_bounds; lia.
    + lia.
  - eexists. split; [reflexivity|]. simpl. split; [|reflexivity].
    split; discriminate.
Qed.

Lemma progress_hook_downloading_percentage_witness :
  ∃ tracker',
    progress_hook (mkEvent "downloading" (Some 512) None (Some 2048) None (Some 3))
      DownloadProgress_new = Ok tracker' ∧
    (0 <= percentage tracker' <= 100)%Q ∧
    (reported_total (mkEvent "downloading" (Some 512) None (Some 2048) None (Some 3)) = 0 →
     percentage tracker' = 0%Q).
Proof.
  apply progress_hook_downloading_percentage.
  - reflexivity.
  - unfold get; simpl; lia.
  - left. unfold get, reported_total; simpl; lia.
Defined.

(** ** Decimal text of integers *)

Lemma string_of_uint_digits (u : Decimal.uint) :
  all_chars is_digit (NilEmpty.string_of_uint u) = true.
Proof. induction u; simpl; auto. Qed.

Lemma all_chars_impl (P Q : ascii → bool) s :
  (∀ c, P c = true → Q c = true) →
  all_chars P s = true → all_chars Q s = true.
Proof.
  intros HPQ. induction s as [|c s IH]; simpl; [done|].
  rewrite !andb_true_iff. intros [Hc Hs]. auto.
Qed.

Lemma py_str_chars (n : Z) : all_chars is_sign_or_digit (py_str n) = true.
Proof.
  assert (Hd : ∀ u, all_chars is_sign_or_digit (NilEmpty.string_of_uint u) = true).
  { intros u. apply all_chars_impl with (P := is_digit).
    - intros c Hc. unfold is_sign_or_digit. rewrite Hc. apply orb_true_r.
    - apply string_of_uint_digits. }
  destruct n as [|p|p]; unfold py_str; simpl; auto.
Qed.

Lemma py_digits_string_of_uint (u : Decimal.uint) :
  u ≠ Decimal.Nil →
  py_digits (NilEmpty.string_of_uint u) = Ok (Z.of_uint u).
Proof.
  intros Hu. unfold py_digits.
  destruct (NilEmpty.string_of_uint u) as [|c s] eqn:E.
  - destruct u; simpl in E; congruence.
  - rewrite <- E, NilEmpty.usu. reflexivity.
Qed.

Lemma py_int_string_of_uint (u : Decimal.uint) :
  u ≠ Decimal.Nil →
  py_int (NilEmpty.string_of_uint u) = Ok (Z.of_uint u).
Proof.
  intros Hu. rewrite <- (py_digits_string_of_uint u Hu).
  destruct u; reflexivity.
Qed.

Lemma of_uint_to_uint (p : positive) : Z.of_uint (Pos.to_uint p) = Z.pos p.
Proof. unfold Z.of_uint. rewrite DecimalPos.Unsigned.of_to. reflexivity. Qed.

(** [int(str(n)) == n] *)
Lemma py_int_py_str (n : Z) : py_int (py_str n) = Ok n.
Proof.
  destruct n as [|p|p]; unfold py_str; simpl.
  - reflexivity.
  - rewrite py_int_string_of_uint by apply DecimalPos.Unsigned.to_uint_nonnil.
    by rewrite of_uint_to_uint.
  - rewrite py_digits_string_of_uint by apply DecimalPos.Unsigned.to_uint_nonnil.
    by rewrite of_uint_to_uint.
Qed.

Lemma py_str_head (n : Z) :
  ∃ c s, py_str n = String c s ∧ is_sign_or_digit c = true.
Proof.
  pose proof (py_int_py_str n) as Hrt. pose proof (py_str_chars n) as Hch.
  destruct (py_str n) as [|c s]; [discriminate|].
  simpl in Hch. apply andb_true_iff in Hch as [Hc _]. eauto.
Qed.

(** ** Removing the letter p *)

Lemma replace_p_app (s t : string) :
  all_chars is_sign_or_digit s = true →
  replace_from "p" "" 0 (s +:+ t) = s +:+ replace_from "p" "" 0 t.
Proof.
  induction s as [|c s IH]; [done|].
  cbn [all_chars]. rewrite andb_true_iff. intros [Hc Hs].
  change (String c s +:+ t) with (String c (s +:+ t)).
  cbn [replace_from String.prefix].
  destruct (ascii_dec "p" c) as [<-|_]; [discriminate Hc|].
  by rewrite IH.
Qed.

Lemma app_empty_r (s : string) : s +:+ "" = s.
Proof.
  induction s as [|c s IH]; [done|].
  change (String c (s +:+ "") = String c s). by rewrite IH.
Qed.

(** [f"{h}p".replace('p', '')] is the decimal text of [h]. *)
Lemma replace_p_label (h : Z) :
  py_replace "p" "" (py_str h +:+ "p") = py_str h.
Proof.
  unfold py_replace. rewrite replace_p_app by apply py_str_chars.
  apply app_empty_r.
Qed.

Lemma label_not_best (h : Z) : String.eqb (py_str h +:+ "p") "best" = false.
Proof.
  destruct (py_str_head h) as (c & s & -> & Hc).
  apply String.eqb_neq. intros Heq. injection Heq as -> _. discriminate Hc.
Qed.

(** ** The format selection *)

(** C4: for "best" the selector prefers [bestvideo+bestaudio] capped at
    height 1080 and falls back to [best] under the same cap; for a
    quality written as a height followed by p it has the same shape with
    that height as the cap. *)
Theorem download_format_selector :
  opt_format (download_opts "best")
    = "bestvideo[height<=1080]+bestaudio/best[height<=1080]" ∧
  ∀ h : Z,
    opt_format (download_opts (py_str h +:+ "p"))
    = "bestvideo[height<=" +:+ py_str h +:+ "]+bestaudio/best[height<="
        +:+ py_str h +:+ "]".
Proof.
  split; [reflexivity|]. intros h.
  cbn [download_opts opt_format]. unfold format_selector.
  by rewrite label_not_best, replace_p_label.
Qed.

(** ** The format catalogue *)

(** C10: without a ['formats'] key, or with an empty list under it, the
    catalogue is the empty list and nothing is raised. *)
Theorem get_available_formats_no_formats (info : video_info) :
  formats info = None ∨ formats info = Some [] →
  get_available_formats info = Ok [].
Proof.
  intros [H|H]; unfold get_available_formats; rewrite H; reflexivity.
Qed.

Lemma get_available_formats_no_formats_witness :
  get_available_formats
    (mkVideoInfo (Some "clip") (Some 65) None None None None) = Ok [] ∧
  get_available_formats
    (mkVideoInfo (Some "clip") (Some 65) None None None (Some [])) = Ok [].
Proof.
  split; apply get_available_formats_no_formats; [left | right]; reflexivity.
Defined.

Lemma quality_key_format_entry (f : raw_format) (h : Z) :
  quality_key (format_entry f h) = Ok h.
Proof.
  unfold quality_key, format_entry. cbn [quality].
  by rewrite replace_p_label, py_int_py_str.
Qed.

(** ** The stable sort by decreasing key *)

Section SortDesc.
Context {A : Type}.
Implicit Types (x : Z * A) (l : list (Z * A)).

Lemma insert_desc_perm x l : insert_desc x l ≡ₚ x :: l.
Proof.
  induction l as [|y l IH]; simpl; [done|].
  destruct (x.1 <? y.1); [|done].
  rewrite IH. apply Permutation_swap.
Qed.

Lemma sort_desc_perm l : sort_desc l ≡ₚ l.
Proof.
  induction l as [|x l IH]; simpl; [done|].
  by rewrite insert_desc_perm, IH.
Qed.

Lemma insert_desc_sorted x l :
  StronglySorted (λ a b, b.1 ≤ a.1) l →
  StronglySorted (λ a b, b.1 ≤ a.1) (insert_desc x l).
Proof.
  induction 1 as [|y l Hl IH Hy]; simpl.
  - repeat constructor.
  - destruct (Z.ltb_spec x.1 y.1) as [Hlt|Hge].
    + constructor; [exact IH|].
      rewrite insert_desc_perm. constructor; [lia | exact Hy].
    + constructor; [by constructor|].
      constructor; [lia|].
      eapply Forall_impl; [exact Hy|]. simpl. intros z Hz. lia.
Qed.

Lemma sort_desc_sorted l : StronglySorted (λ a b, b.1 ≤ a.1) (sort_desc l).
Proof.
  induction l as [|x l IH]; simpl; [constructor|].
  by apply insert_desc_sorted.
Qed.

End SortDesc.

(** A list sorted by [>=] that has no duplicates is sorted by [>]. *)
Lemma sorted_strict (hs : list Z) :
  StronglySorted (λ a b, b ≤ a) hs → NoDup hs →
  StronglySorted (λ a b, b < a) hs.
Proof.
  induction 1 as [|h hs Hs IH Hh]; intros Hnd; [constructor|].
  apply NoDup_cons in Hnd as [Hnotin Hnd].
  constructor; [by apply IH|].
  apply Forall_forall. intros k Hk.
  rewrite Forall_forall in Hh. specialize (Hh k Hk).
  assert (k ≠ h) by (intros ->; contradiction). lia.
Qed.

Lemma mapR_Forall2 {A B : Type} (f : A → result B) (l : list A) (ks : list B) :
  Forall2 (λ a k, f a = Ok k) l ks → mapR f l = Ok ks.
Proof.
  induction 1 as [|a k l ks Ha _ IH]; simpl; [done|].
  rewrite Ha. simpl. rewrite IH. reflexivity.
Qed.

Lemma sort_by_key_reverse_spec {A : Type} (key : A → result Z)
    (pairs : list (Z * A)) :
  Forall (λ p, key p.2 = Ok p.1) pairs →
  ∃ sorted : list (Z * A),
    sort_by_key_reverse key pairs.*2 = Ok sorted.*2 ∧
    sorted ≡ₚ pairs ∧
    StronglySorted (λ a b, b.1 ≤ a.1) sorted.
Proof.
  intros Hkeys. exists (sort_desc pairs). split; [|split].
  - unfold sort_by_key_reverse.
    rewrite (mapR_Forall2 key pairs.*2 pairs.*1).
    + simpl. by rewrite zip_fst_snd.
    + induction Hkeys as [|[k a] l Hk _ IH]; simpl; constructor; auto.
  - apply sort_desc_perm.
  - apply sort_desc_sorted.
Qed.

(** ** The loop of the catalogue *)

Lemma qualifies_height f h h' :
  qualifies f h → height f = Some h' → h = h'.
Proof. intros (_ & Hh & _) Hh'. congruence. Qed.

Lemma kept_at_snoc (fs : list raw_format) (f : raw_format) i f' h :
  kept_at (fs ++ [f]) i f' h ↔
  kept_at fs i f' h ∨
  (i = length fs ∧ f' = f ∧ qualifies f h ∧ ∀ g, g ∈ fs → ¬ qualifies g h).
Proof.
  unfold kept_at. split.
  - intros (Hl & Hq & Hfirst).
    destruct (decide (i < length fs)%nat) as [Hi|Hi].
    + left. rewrite lookup_app_l in Hl by exact Hi.
      split; [exact Hl|]. split; [exact Hq|].
      intros j g Hj Hg. apply (Hfirst j g Hj).
      rewrite lookup_app_l by lia. exact Hg.
    + right. rewrite lookup_app_r in Hl by lia.
      apply list_lookup_singleton_Some in Hl as [Hi0 ->].
      split; [lia|]. split; [reflexivity|]. split; [exact Hq|].
      intros g Hg. apply list_elem_of_lookup in Hg as [j Hj].
      apply (Hfirst j g).
      * apply lookup_lt_Some in Hj. lia.
      * apply lookup_app_l_Some. exact Hj.
  - intros [(Hl & Hq & Hfirst) | (-> & -> & Hq & Hnone)].
    + split; [by apply lookup_app_l_Some|]. split; [exact Hq|].
      intros j g Hj Hg. apply (Hfirst j g Hj).
      apply lookup_lt_Some in Hl.
      rewrite lookup_app_l in Hg by lia. exact Hg.
    + split; [by rewrite list_lookup_middle|]. split; [exact Hq|].
      intros j g Hj Hg. rewrite lookup_app_l in Hg by exact Hj.
      apply (Hnone g). apply list_elem_of_lookup. eauto.
Qed.

(** After the loop has gone through [fs], the entries it has appended are
    those of the pairs [kept], one per height, and the set of seen
    heights is the set of their heights. *)
Lemma catalogue_loop (fs : list raw_format) :
  ∃ kept : list (raw_format * Z),
    foldl visit_format ([], ∅) fs
      = ((λ p, format_entry p.1 p.2) <$> kept, list_to_set kept.*2) ∧
    NoDup kept.*2 ∧
    (∀ h, h ∈ kept.*2 ↔ ∃ g, g ∈ fs ∧ qualifies g h) ∧
    (∀ f h, (f, h) ∈ kept ↔ ∃ i, kept_at fs i f h).
Proof.
  induction fs as [|f fs IH] using rev_ind.
  - exists []. split; [reflexivity|]. split; [constructor|]. split.
    + intros h. split; [intros Hin; inversion Hin|].
      intros (g & Hg & _). inversion Hg.
    + intros f h. split; [intros Hin; inversion Hin|].
      intros (i & Hl & _). rewrite lookup_nil in Hl. discriminate.
  - destruct IH as (kept & Hloop & Hnd & Hseen & Hkept).
    rewrite foldl_snoc, Hloop.
    (* the entry changes nothing when an earlier one already stands for
       every height it qualifies for *)
    assert (Hskip : (∀ h, qualifies f h → ∃ g, g ∈ fs ∧ qualifies g h) →
      NoDup kept.*2 ∧
      (∀ h, h ∈ kept.*2 ↔ ∃ g, g ∈ fs ++ [f] ∧ qualifies g h) ∧
      (∀ f' h, (f', h) ∈ kept ↔ ∃ i, kept_at (fs ++ [f]) i f' h)).
    { intros Hdup. split; [exact Hnd|]. split.
      - intros h. rewrite Hseen. split.
        + intros (g & Hg & Hq). exists g. split; [|exact Hq].
          apply elem_of_app. by left.
        + intros (g & Hg & Hq). apply elem_of_app in Hg as [Hg|Hg]; [eauto|].
          apply list_elem_of_singleton in Hg as ->. by apply Hdup.
      - intros f' h. rewrite Hkept. split.
        + intros [i Hi]. exists i. apply kept_at_snoc. by left.
        + intros [i Hi]. apply kept_at_snoc in Hi as [Hi | (_ & _ & Hq & Hnone)];
            [eauto|].
          destruct (Hdup h Hq) as (g & Hg & Hgq). destruct (Hnone g Hg Hgq). }
    unfold visit_format.
    destruct (has_video f) eqn:Hv;
      [|exists kept; split; [reflexivity|]; apply Hskip;
        intros h (Hv' & _); congruence].
    destruct (height f) as [q|] eqn:Hh;
      [|exists kept; split; [reflexivity|]; apply Hskip;
        intros h (_ & Hh' & _); congruence].
    destruct (Z.leb_spec q 1080) as [Hle|Hgt]; rewrite ?andb_false_r;
      [|exists kept; split; [reflexivity|]; apply Hskip;
        intros h Hq; pose proof (qualifies_height _ _ _ Hq Hh) as ->;
        destruct Hq as (_ & _ & ?); lia].
    rewrite andb_true_r. case_bool_decide as Hfresh.
    + rewrite elem_of_list_to_set in Hfresh.
      assert (Hq : qualifies f q) by done.
      assert (Hnone : ∀ g, g ∈ fs → ¬ qualifies g q).
      { intros g Hg Hgq. apply Hfresh, Hseen. eauto. }
      exists (kept ++ [(f, q)]). split; [|split; [|split]].
      * rewrite !fmap_app. change ([(f, q)].*2) with [q].
        rewrite list_to_set_snoc_L. simpl.
        f_equal. apply (comm_L (∪)).
      * rewrite fmap_app. apply NoDup_app. split; [exact Hnd|]. split.
        -- intros h Hin Hin'. apply list_elem_of_singleton in Hin' as ->.
           contradiction.
        -- apply NoDup_singleton.
      * intros h. rewrite fmap_app, elem_of_app, Hseen. simpl.
        rewrite list_elem_of_singleton. split.
        -- intros [(g & Hg & Hgq) | ->].
           ++ exists g. split; [|exact Hgq]. apply elem_of_app. by left.
           ++ exists f. split; [|exact Hq]. apply elem_of_app. right.
              by apply list_elem_of_singleton.
        -- intros (g & Hg & Hgq). apply elem_of_app in Hg as [Hg|Hg]; [eauto|].
           apply list_elem_of_singleton in Hg as ->. right.
           exact (qualifies_height _ _ _ Hgq Hh).
      * intros f' h. rewrite elem_of_app, Hkept, list_elem_of_singleton. split.
        -- intros [[i Hi] | Heq].
           ++ exists i. apply kept_at_snoc. by left.
           ++ injection Heq as -> ->. exists (length fs).
              apply kept_at_snoc. right. done.
        -- intros [i Hi].
           apply kept_at_snoc in Hi as [Hi | (_ & -> & Hq' & _)]; [eauto|].
           right. by rewrite (qualifies_height _ _ _ Hq' Hh).
    + exists kept. split; [reflexivity|]. apply Hskip.
      intros h Hq'. pose proof (qualifies_height _ _ _ Hq' Hh) as ->.
      apply Hseen. by rewrite elem_of_list_to_set in Hfresh.
Qed.

(** The catalogue is the sorted list of the entries the loop kept. *)
Lemma get_available_formats_sorted (info : video_info) :
  ∃ (kept : list (raw_format * Z)) (sorted : list (Z * format_option)),
    get_available_formats info = Ok sorted.*2 ∧
    sorted ≡ₚ (λ p, (p.2, format_entry p.1 p.2)) <$> kept ∧
    StronglySorted (λ a b, b.1 ≤ a.1) sorted ∧
    NoDup kept.*2 ∧
    (∀ h, h ∈ kept.*2 ↔ ∃ g, g ∈ get (formats info) [] ∧ qualifies g h) ∧
    (∀ f h, (f, h) ∈ kept ↔ ∃ i, kept_at (get (formats info) []) i f h).
Proof.
  destruct (catalogue_loop (get (formats info) []))
    as (kept & Hloop & Hnd & Hseen & Hkept).
  destruct (sort_by_key_reverse_spec quality_key
              ((λ p, (p.2, format_entry p.1 p.2)) <$> kept))
    as (sorted & Hsort & Hperm & Hsorted).
  { apply Forall_fmap, Forall_forall. intros [f h] _. simpl.
    apply quality_key_format_entry. }
  exists kept, sorted. split; [|done].
  rewrite <- Hsort, <- list_fmap_compose.
  unfold get_available_formats, get in *.
  destruct (formats info) as [fs|].
  - rewrite Hloop. reflexivity.
  - simpl in Hloop. injection Hloop as Hnil _. symmetry in Hnil.
    apply fmap_nil_inv in Hnil as ->. reflexivity.
Qed.

(** C1: the catalogue never holds two entries of the same height, no
    height in it exceeds 1080, and the heights decrease strictly along
    the list. *)
Theorem get_available_formats_heights (info : video_info) :
  ∃ (out : list format_option) (hs : list Z),
    get_available_formats info = Ok out ∧
    Forall2 emitted_height out hs ∧
    NoDup hs ∧
    Forall (λ h, h ≤ 1080) hs ∧
    StronglySorted (λ a b, b < a) hs.
Proof.
  destruct (get_available_formats_sorted info)
    as (kept & sorted & Hout & Hperm & Hsorted & Hnd & Hseen & _).
  assert (Hhs : sorted.*1 ≡ₚ kept.*2).
  { rewrite Hperm, <- list_fmap_compose. done. }
  assert (Hnd' : NoDup sorted.*1) by (by rewrite Hhs).
  exists sorted.*2, sorted.*1. split; [exact Hout|]. split; [|split; [|split]].
  - apply Forall2_fmap, Forall_Forall2_diag.
    rewrite Hperm. apply Forall_fmap, Forall_forall. intros [f h] _.
    apply quality_key_format_entry.
  - exact Hnd'.
  - rewrite Hhs. apply Forall_forall. intros h Hh.
    apply Hseen in Hh as (g & _ & _ & _ & Hle). exact Hle.
  - apply sorted_strict; [|exact Hnd'].
    eapply StronglySorted_fmap; [|exact Hsorted]. done.
Qed.

(** C3, as the code has it: an entry the loop keeps is in the catalogue
    under its height; its size text is " (<N> MB)", with a leading blank
    and parentheses and [N] the file size divided by 1048576 and rounded
    down, when the file size is there and not zero, and is empty when the
    file size is absent or zero. *)
Theorem get_available_formats_size (info : video_info) (fs : list raw_format) :
  formats info = Some fs →
  ∃ out : list format_option,
    get_available_formats info = Ok out ∧
    ∀ i f h, kept_at fs i f h →
      ∃ o, o ∈ out ∧ emitted_height o h ∧
        (filesize f = None ∨ filesize f = Some 0 → size o = "") ∧
        (∀ n, filesize f = Some n → n ≠ 0 →
           size o = " (" +:+ py_str (n / 1048576) +:+ " MB)").
Proof.
  intros Hfs.
  destruct (get_available_formats_sorted info)
    as (kept & sorted & Hout & Hperm & _ & _ & _ & Hkept).
  rewrite Hfs in Hkept. simpl in Hkept.
  exists sorted.*2. split; [exact Hout|]. intros i f h Hat.
  exists (format_entry f h). split; [|split; [|split]].
  - apply list_elem_of_fmap. exists (h, format_entry f h). split; [done|].
    rewrite Hperm. apply list_elem_of_fmap. exists (f, h). split; [done|].
    apply Hkept. eauto.
  - apply quality_key_format_entry.
  - cbn [format_entry size]. unfold size_mb. by intros [-> | ->].
  - intros n Hn Hnz. cbn [format_entry size]. unfold size_mb. rewrite Hn.
    destruct (Z.eqb_spec n 0) as [?|_]; [contradiction | reflexivity].
Qed.

Lemma get_available_formats_size_witness :
  ∃ out : list format_option,
    get_available_formats
      (mkVideoInfo None None None None None
         (Some [mkRawFormat (Some "avc1") (Some 720) None (Some "mp4") (Some 5242880)]))
      = Ok out ∧
    ∀ i f h,
      kept_at [mkRawFormat (Some "avc1") (Some 720) None (Some "mp4") (Some 5242880)]
        i f h →
      ∃ o, o ∈ out ∧ emitted_height o h ∧
        (filesize f = None ∨ filesize f = Some 0 → size o = "") ∧
        (∀ n, filesize f = Some n → n ≠ 0 →
           size o = " (" +:+ py_str (n / 1048576) +:+ " MB)").
Proof. apply get_available_formats_size. reflexivity. Defined.

(** C3, as the specification words it, fails: for a kept entry of
    5242880 bytes the size text is " (5 MB)", not "5 MB". *)
Lemma size_text_not_bare :
  get_available_formats
    (mkVideoInfo None None None None None
       (Some [mkRawFormat (Some "avc1") (Some 720) None (Some "mp4") (Some 5242880)]))
    = Ok [ {| quality := "720p"; format := "MP4"; note := ""; size := " (5 MB)" |} ] ∧
  " (5 MB)" ≠ "5 MB".
Proof. split; [vm_compute; reflexivity | discriminate]. Qed.

(** C2: for four entries with a video codec and heights 720, 1080, 720 and
    2160, the catalogue has two entries, the 1080p one made from the
    second entry and then the 720p one made from the first. *)
Theorem get_available_formats_example
    (info : video_info) (f1 f2 f3 f4 : raw_format) :
  formats info = Some [f1; f2; f3; f4] →
  vcodec f1 ≠ Some "none" → vcodec f2 ≠ Some "none" →
  vcodec f3 ≠ Some "none" → vcodec f4 ≠ Some "none" →
  height f1 = Some 720 → height f2 = Some 1080 →
  height f3 = Some 720 → height f4 = Some 2160 →
  get_available_formats info
  = Ok [ {| quality := "1080p"; format := py_upper (get (ext f2) "");
            note := get (format_note f2) ""; size := size_mb (filesize f2) |};
         {| quality := "720p"; format := py_upper (get (ext f1) "");
            note := get (format_note f1) ""; size := size_mb (filesize f1) |} ].
Proof.
  intros Hfs Hv1 Hv2 Hv3 Hv4 Hh1 Hh2 Hh3 Hh4.
  unfold get_available_formats. rewrite Hfs.
  cbn [foldl]. unfold visit_format, has_video.
  rewrite Hh1, Hh2, Hh3, Hh4.
  rewrite !(bool_decide_eq_false_2 (vcodec _ = Some "none")) by assumption.
  cbn [negb andb Z.eqb Z.leb Z.compare Pos.compare Pos.compare_cont].
  rewrite (bool_decide_eq_true_2 (720 ∉ (∅ : gset Z)))
    by apply not_elem_of_empty.
  cbn [andb app].
  rewrite (bool_decide_eq_true_2 (1080 ∉ _))
    by (rewrite elem_of_union, elem_of_singleton, elem_of_empty; lia).
  cbn [andb app].
  rewrite (bool_decide_eq_false_2 (720 ∉ _))
    by (rewrite !elem_of_union, !elem_of_singleton; tauto).
  cbn [andb app]. rewrite andb_false_r.
  unfold sort_by_key_reverse. cbn [mapR].
  rewrite !quality_key_format_entry. reflexivity.
Qed.

Lemma get_available_formats_example_witness :
  get_available_formats
    (mkVideoInfo (Some "clip") (Some 65) None None None
       (Some [ mkRawFormat (Some "avc1") (Some 720) (Some "720p") (Some "mp4") (Some 5242880);
               mkRawFormat (Some "vp9") (Some 1080) (Some "1080p") (Some "webm") None;
               mkRawFormat (Some "vp9") (Some 720) (Some "720p") (Some "webm") None;
               mkRawFormat (Some "vp9") (Some 2160) (Some "2160p") (Some "webm") None ]))
  = Ok [ {| quality := "1080p"; format := "WEBM"; note := "1080p"; size := "" |};
         {| quality := "720p"; format := "MP4"; note := "720p"; size := " (5 MB)" |} ].
Proof.
  apply (get_available_formats_example _
    (mkRawFormat (Some "avc1") (Some 720) (Some "720p") (Some "mp4") (Some 5242880))
    (mkRawFormat (Some "vp9") (Some 1080) (Some "1080p") (Some "webm") None)
    (mkRawFormat (Some "vp9") (Some 720) (Some "720p") (Some "webm") None)
    (mkRawFormat (Some "vp9") (Some 2160) (Some "2160p") (Some "webm") None));
    first [reflexivity | discriminate].
Defined.

(** ** Replacing an extension *)

Lemma ends_with_refl s : ends_with s s = true.
Proof. destruct s; cbn [ends_with]; by rewrite String.eqb_refl. Qed.

Lemma ends_with_cons suf c s :
  ends_with suf s = true → ends_with suf (String c s) = true.
Proof. intros H. cbn [ends_with]. rewrite H. apply orb_true_r. Qed.

Lemma ends_with_app_l suf p t :
  ends_with suf t = true → ends_with suf (p +:+ t) = true.
Proof.
  intros H. induction p as [|c p IH]; [exact H|].
  change (String c p +:+ t) with (String c (p +:+ t)).
  by apply ends_with_cons.
Qed.

Lemma ends_with_inv suf c s :
  ends_with suf (String c s) = true →
  String c s = suf ∨ ends_with suf s = true.
Proof.
  cbn [ends_with]. intros [H|H]%orb_true_iff; [left | by right].
  by apply String.eqb_eq.
Qed.

Lemma prefix_app a rest : String.prefix a (a +:+ rest) = true.
Proof.
  induction a as [|c a IH]; [by destruct rest|].
  change (String c a +:+ rest) with (String c (a +:+ rest)).
  cbn [String.prefix]. by destruct (ascii_dec c c).
Qed.

Lemma prefix_app_inv a s :
  String.prefix a s = true → ∃ rest, s = a +:+ rest.
Proof.
  revert s. induction a as [|c a IH]; intros s H; [by exists s|].
  destruct s as [|c' s]; [discriminate|]. cbn [String.prefix] in H.
  destruct (ascii_dec c c') as [<-|]; [|discriminate].
  destruct (IH s H) as [rest ->]. by exists rest.
Qed.

Lemma replace_from_skip_all old new s k :
  (String.length s ≤ k)%nat → replace_from old new k s = "".
Proof.
  revert k. induction s as [|c s IH]; intros k Hk; [done|].
  destruct k as [|k]; simpl in Hk; [lia|].
  cbn [replace_from]. apply IH. lia.
Qed.

Lemma skip_ok_app o rest :
  all_chars not_dot o = true → skip_ok (String.length o) (o +:+ rest) = true.
Proof.
  induction o as [|c o IH]; [done|].
  cbn [all_chars]. intros [Hc Ho]%andb_true_iff.
  change (String c o +:+ rest) with (String c (o +:+ rest)).
  cbn [String.length skip_ok]. by rewrite Hc, IH.
Qed.

Section ReplaceExtension.

(** The pattern is a dot followed by characters that are not dots, as
    ".webm" and ".mkv" are. *)
Variables (o new : string).
Hypothesis o_dotfree : all_chars not_dot o = true.

Let old : string := String "." o.

Lemma replace_dotfree t :
  all_chars not_dot t = true →
  replace_from old new 0 t = t.
Proof.
  induction t as [|c t IH]; [done|].
  cbn [all_chars]. intros [Hc Ht]%andb_true_iff.
  cbn [replace_from]. unfold old at 1. cbn [String.prefix].
  destruct (ascii_dec "." c) as [<-|_]; [discriminate Hc|].
  by rewrite IH.
Qed.

(** What follows a replaced occurrence is read with the rest of the
    occurrence still to skip; these characters are not dots. *)
Lemma replace_step c s :
  String.prefix old (String c s) = true →
  replace_from old new 0 (String c s)
    = new +:+ replace_from old new (String.length o) s ∧
  skip_ok (String.length o) s = true.
Proof.
  intros Hp. split.
  - cbn [replace_from]. rewrite Hp. unfold old.
    cbn [String.length Nat.sub]. by rewrite Nat.sub_0_r.
  - apply prefix_app_inv in Hp as [rest Hrest]. unfold old in Hrest.
    change (String "." o +:+ rest) with (String "." (o +:+ rest)) in Hrest.
    injection Hrest as _ ->. by apply skip_ok_app.
Qed.

(** A name that ends in the pattern ends in the replacement afterwards. *)
Lemma replace_own_suffix s k :
  skip_ok k s = true →
  ends_with old s = true →
  ends_with new (replace_from old new k s) = true.
Proof.
  revert k. induction s as [|c s IH]; intros k Hk He; [discriminate|].
  destruct k as [|k].
  - destruct (String.prefix old (String c s)) eqn:Hp.
    + destruct (replace_step c s Hp) as [-> Hskip].
      apply ends_with_inv in He as [Heq|He].
      * unfold old in Heq. injection Heq as _ ->.
        rewrite replace_from_skip_all by done.
        rewrite app_empty_r. apply ends_with_refl.
      * apply ends_with_app_l. by apply IH.
    + cbn [replace_from]. rewrite Hp.
      apply ends_with_inv in He as [Heq|He].
      * rewrite Heq in Hp. pose proof (prefix_app old "") as Hpp.
        rewrite app_empty_r in Hpp. congruence.
      * apply ends_with_cons. by apply IH.
  - cbn [skip_ok] in Hk. apply andb_true_iff in Hk as [Hc Hk].
    cbn [replace_from].
    apply ends_with_inv in He as [Heq|He]; [|by apply IH].
    unfold old in Heq. injection Heq as -> _. discriminate Hc.
Qed.

(** A name that ends in another extension keeps it. *)
Lemma replace_other_suffix (e : string) s k :
  all_chars not_dot e = true →
  String.prefix old (String "." e) = false →
  skip_ok k s = true →
  ends_with (String "." e) s = true →
  ends_with (String "." e) (replace_from old new k s) = true.
Proof.
  intros He Hne. revert k.
  induction s as [|c s IH]; intros k Hk Hs; [discriminate|].
  destruct k as [|k].
  - destruct (String.prefix old (String c s)) eqn:Hp.
    + destruct (replace_step c s Hp) as [-> Hskip].
      apply ends_with_inv in Hs as [Heq|Hs]; [congruence|].
      apply ends_with_app_l. by apply IH.
    + apply ends_with_inv in Hs as [Heq|Hs].
      * rewrite Heq. cbn [replace_from]. rewrite Hne.
        rewrite (replace_dotfree e He). apply ends_with_refl.
      * cbn [replace_from]. rewrite Hp.
        apply ends_with_cons. by apply IH.
  - cbn [skip_ok] in Hk. apply andb_true_iff in Hk as [Hc Hk].
    cbn [replace_from].
    apply ends_with_inv in Hs as [Heq|Hs]; [|by apply IH].
    injection Heq as -> _. discriminate Hc.
Qed.

End ReplaceExtension.

(** ** The file name returned by the download *)

(** The three extensions the program provides for end in ".mp4". *)
Lemma mp4_filename_known_extension (prepared : string) :
  ends_with ".webm" prepared = true ∨
  ends_with ".mkv" prepared = true ∨
  ends_with ".mp4" prepared = true →
  ends_with ".mp4" (mp4_filename prepared) = true.
Proof.
  unfold mp4_filename, py_replace.
  intros [H | [H | H]].
  - apply (replace_other_suffix "mkv" ".mp4" eq_refl "mp4" _ 0%nat);
      [done..|].
    by apply (replace_own_suffix "webm" ".mp4" eq_refl _ 0%nat).
  - apply (replace_own_suffix "mkv" ".mp4" eq_refl _ 0%nat); [done|].
    by apply (replace_other_suffix "webm" ".mp4" eq_refl "mkv" _ 0%nat).
  - apply (replace_other_suffix "mkv" ".mp4" eq_refl "mp4" _ 0%nat);
      [done..|].
    by apply (replace_other_suffix "webm" ".mp4" eq_refl "mp4" _ 0%nat).
Qed.

(** The file name of a successful download is the prepared name after
    the two replacements. *)
Lemma download_video_filename
    (extract_info : ydl_opts → string → bool → list progress_event * result video_info)
    (prepare_filename : ydl_opts → video_info → string)
    (url quality : string) (tracker tracker' : DownloadProgress)
    (filename : string) (info : video_info) :
  download_video extract_info prepare_filename url quality tracker
    = Ok (filename, info, tracker') →
  filename = mp4_filename (prepare_filename (download_opts quality) info).
Proof.
  unfold download_video.
  destruct (extract_info (download_opts quality) url true) as [events outcome].
  destruct (report_progress _ events DownloadProgress_new) as [t|e];
    [|discriminate].
  destruct outcome as [i|e]; [|discriminate].
  simpl. intros [= <- <- <-]. reflexivity.
Qed.

(** C5 at a prepared name with another extension: the download of a
    single-file FLV stream returns "clip.flv", which does not end in
    ".mp4". *)
Theorem download_video_keeps_flv :
  let info := mkVideoInfo (Some "clip") (Some 65) None None None None in
  download_video
    (λ _ _ _, ([ mkEvent "downloading" (Some 512) (Some 1024) None None None;
                 mkEvent "finished" None None None None None ], Ok info))
    (λ _ i, get (title i) "" +:+ ".flv")
    "https://example.org/watch?v=1" "best" DownloadProgress_new
  = Ok ("clip.flv", info,
        {| downloaded_bytes := 512; total_bytes := 1024; speed := 0; eta := 0;
           percentage := 100; status := "finished" |}) ∧
  ends_with ".mp4" "clip.flv" = false.
Proof. split; vm_compute; reflexivity. Qed.

(** ** Further properties of the progress hook *)

Lemma progress_hook_downloading (d : progress_event) (tracker : DownloadProgress) :
  d_status d = "downloading" →
  progress_hook d tracker
  = Ok {| downloaded_bytes := get (d_downloaded_bytes d) 0;
          total_bytes := reported_total d;
          speed := or_float (get (d_speed d) 0%Q) 0%Q;
          eta := or_int (get (d_eta d) 0) 0;
          percentage :=
            if 0 <? reported_total d
            then (inject_Z (get (d_downloaded_bytes d) 0%Z)
                  / inject_Z (reported_total d) * 100)%Q
            else 0%Q;
          status := "downloading" |}.
Proof.
  intros Hst. unfold progress_hook. rewrite Hst. simpl.
  rewrite or_int_reported_total.
  destruct (Z.ltb_spec 0 (reported_total d)) as [Hpos|_]; [|reflexivity].
  by rewrite truediv_positive.
Qed.

Lemma progress_hook_returns (d : progress_event) (tracker : DownloadProgress) :
  ∃ tracker', progress_hook d tracker = Ok tracker'.
Proof.
  destruct (String.eqb_spec (d_status d) "downloading") as [Hst|Hst].
  - rewrite progress_hook_downloading by exact Hst. eauto.
  - unfold progress_hook. apply String.eqb_neq in Hst. rewrite Hst.
    destruct (String.eqb (d_status d) "finished"); [eauto|].
    destruct (String.eqb (d_status d) "error"); eauto.
Qed.






(** X4: the total recorded for a "downloading" event is its
    ['total_bytes'] when that is there and not zero; otherwise it is the
    ['total_bytes_estimate'], and zero when that is absent as well.  An
    absent byte count, speed or time left is recorded as zero. *)
Theorem progress_hook_total_fallback
    (d : progress_event) (tracker : DownloadProgress) :
  d_status d = "downloading" →
  ∃ tracker',
    progress_hook d tracker = Ok tracker' ∧
    (∀ t, d_total_bytes d = Some t → t ≠ 0 → total_bytes tracker' = t) ∧
    (d_total_bytes d = None ∨ d_total_bytes d = Some 0 →
     ∀ t, d_total_bytes_estimate d = Some t → total_bytes tracker' = t) ∧
    (d_total_bytes d = None ∨ d_total_bytes d = Some 0 →
     d_total_bytes_estimate d = None → total_bytes tracker' = 0) ∧
    (d_downloaded_bytes d = None → downloaded_bytes tracker' = 0) ∧
    (d_speed d = None → speed tracker' = 0%Q) ∧
    (d_eta d = None → eta tracker' = 0).
Proof.
  intros Hst. rewrite progress_hook_downloading by exact Hst.
  eexists. split; [reflexivity|].
  cbn [total_bytes downloaded_bytes speed eta]. unfold reported_total.
  repeat split.
  - intros t -> Ht. by destruct t.
  - intros [-> | ->] t ->; reflexivity.
  - intros [-> | ->] ->; reflexivity.
  - by intros ->.
  - by intros ->.
  - by intros ->.
Qed.

Lemma progress_hook_total_fallback_witness :
  ∃ tracker',
    progress_hook (mkEvent "downloading" (Some 512) (Some 0) (Some 4096) None None)
      DownloadProgress_new = Ok tracker' ∧
    total_bytes tracker' = 4096.
Proof.
  destruct (progress_hook_total_fallback
              (mkEvent "downloading" (Some 512) (Some 0) (Some 4096) None None)
              DownloadProgress_new eq_refl)
    as (tracker' & Hrun & _ & Hest & _).
  exists tracker'. split; [exact Hrun|].
  apply Hest; [by right | reflexivity].
Defined.

(** X5: an event that is not "downloading" never touches the byte
    counts, the speed or the time left; unless it is "finished" it keeps
    the percentage as well, so an "error" event leaves the percentage of
    the last progress report in place. *)
Theorem progress_hook_keeps_counters
    (d : progress_event) (tracker : DownloadProgress) :
  d_status d ≠ "downloading" →
  ∃ tracker',
    progress_hook d tracker = Ok tracker' ∧
    downloaded_bytes tracker' = downloaded_bytes tracker ∧
    total_bytes tracker' = total_bytes tracker ∧
    speed tracker' = speed tracker ∧
    eta tracker' = eta tracker ∧
    (d_status d ≠ "finished" → percentage tracker' = percentage tracker).
Proof.
  intros Hst. unfold progress_hook. apply String.eqb_neq in Hst. rewrite Hst.
  destruct (String.eqb_spec (d_status d) "finished") as [Hf|Hf].
  - eexists. split; [reflexivity|]. repeat split; try reflexivity.
    intros Hnf. contradiction.
  - destruct (String.eqb (d_status d) "error");
      (eexists; split; [reflexivity|]; repeat split; reflexivity).
Qed.

Lemma progress_hook_keeps_counters_witness :
  ∃ tracker',
    progress_hook (mkEvent "error" (Some 7) (Some 9) None None None)
      (mkDownloadProgress 512 2048 (3 # 2) 9 25 "downloading") = Ok tracker' ∧
    downloaded_bytes tracker' = 512 ∧
    total_bytes tracker' = 2048 ∧
    speed tracker' = (3 # 2)%Q ∧
    eta tracker' = 9 ∧
    ("error" ≠ "finished" → percentage tracker' = 25%Q).
Proof. apply progress_hook_keeps_counters. discriminate. Defined.

(** ** Further properties of the download *)

Lemma run_hooks_progress_hook (d : progress_event) (tracker : DownloadProgress) :
  run_hooks [progress_hook] d tracker = progress_hook d tracker.
Proof.
  cbn [run_hooks]. by destruct (progress_hook d tracker).
Qed.

Lemma report_progress_app hooks (l1 l2 : list progress_event) tracker :
  report_progress hooks (l1 ++ l2) tracker
  = tracker' ← report_progress hooks l1 tracker; report_progress hooks l2 tracker'.
Proof.
  revert tracker. induction l1 as [|d l1 IH]; intros tracker; [done|].
  cbn [app report_progress].
  destruct (run_hooks hooks d tracker) as [t|e]; [|done]. apply IH.
Qed.

Lemma report_progress_returns (events : list progress_event) tracker :
  ∃ tracker', report_progress [progress_hook] events tracker = Ok tracker'.
Proof.
  revert tracker. induction events as [|d events IH]; intros tracker; [by eexists|].
  cbn [report_progress]. rewrite run_hooks_progress_hook.
  destruct (progress_hook_returns d tracker) as [t ->]. apply IH.
Qed.

Lemma report_progress_snoc (events : list progress_event) d tracker :
  report_progress [progress_hook] (events ++ [d]) tracker
  = tracker' ← report_progress [progress_hook] events tracker;
    progress_hook d tracker'.
Proof.
  rewrite report_progress_app.
  destruct (report_progress [progress_hook] events tracker) as [t|e]; [|done].
  cbn [mbind result_bind report_progress]. rewrite run_hooks_progress_hook.
  by destruct (progress_hook d t).
Qed.


(** X7: when the download succeeds and the last event reported is
    "finished", the tracker returned has status "finished" and
    percentage 100, whatever events came before and whatever the tracker
    held when the download started. *)
Theorem download_video_finished
    (extract_info : ydl_opts → string → bool → list progress_event * result video_info)
    (prepare_filename : ydl_opts → video_info → string)
    (url quality : string) (tracker : DownloadProgress)
    (events : list progress_event) (d : progress_event) (info : video_info) :
  extract_info (download_opts quality) url true = (events ++ [d], Ok info) →
  d_status d = "finished" →
  ∃ filename tracker',
    download_video extract_info prepare_filename url quality tracker
      = Ok (filename, info, tracker') ∧
    status tracker' = "finished" ∧
    percentage tracker' = 100%Q.
Proof.
  intros Hrun Hst. unfold download_video. rewrite Hrun.
  cbn [progress_hooks download_opts]. rewrite report_progress_snoc.
  destruct (report_progress_returns events DownloadProgress_new) as [t ->].
  cbn [mbind result_bind]. unfold progress_hook. rewrite Hst.
  cbn [String.eqb Ascii.eqb Bool.eqb mbind result_bind].
  eexists _, _. split; [reflexivity|]. split; reflexivity.
Qed.

Lemma download_video_finished_witness :
  ∃ filename tracker',
    download_video
      (λ _ _ _, ([ mkEvent "downloading" (Some 512) (Some 1024) None None None ]
                 ++ [ mkEvent "finished" None None None None None ],
                 Ok (mkVideoInfo (Some "clip") (Some 65) None None None None)))
      (λ _ i, get (title i) "" +:+ ".webm")
      "https://example.org/watch?v=1" "720p"
      (mkDownloadProgress 1 2 0 0 50 "error")
      = Ok (filename, mkVideoInfo (Some "clip") (Some 65) None None None None, tracker') ∧
    status tracker' = "finished" ∧
    percentage tracker' = 100%Q.
Proof.
  apply (download_video_finished _ _ _ _ _
           [ mkEvent "downloading" (Some 512) (Some 1024) None None None ]
           (mkEvent "finished" None None None None None));
    reflexivity.
Defined.

(** X8: when the name yt-dlp prepares ends in ".webm", ".mkv" or ".mp4",
    the path a successful download returns ends in ".mp4". *)
Theorem download_video_mp4_path
    (extract_info : ydl_opts → string → bool → list progress_event * result video_info)
    (prepare_filename : ydl_opts → video_info → string)
    (url quality : string) (tracker tracker' : DownloadProgress)
    (filename : string) (info : video_info) :
  download_video extract_info prepare_filename url quality tracker
    = Ok (filename, info, tracker') →
  ends_with ".webm" (prepare_filename (download_opts quality) info) = true ∨
  ends_with ".mkv" (prepare_filename (download_opts quality) info) = true ∨
  ends_with ".mp4" (prepare_filename (download_opts quality) info) = true →
  ends_with ".mp4" filename = true.
Proof.
  intros Hrun Hext. rewrite (download_video_filename _ _ _ _ _ _ _ _ Hrun).
  by apply mp4_filename_known_extension.
Qed.

Lemma download_video_mp4_path_witness :
  ends_with ".mp4" "my.clip.mp4" = true.
Proof.
  apply (download_video_mp4_path
           (λ _ _ _, ([], Ok (mkVideoInfo (Some "my.clip") None None None None None)))
           (λ _ i, get (title i) "" +:+ ".mkv")
           "https://example.org/watch?v=1" "best"
           DownloadProgress_new DownloadProgress_new "my.clip.mp4"
           (mkVideoInfo (Some "my.clip") None None None None None)).
  - vm_compute. reflexivity.
  - right. left. vm_compute. reflexivity.
Defined.

(** ** Replacements inside the name *)

Lemma replace_from_skip_prefix old new (p t : string) :
  replace_from old new (String.length p) (p +:+ t) = replace_from old new 0 t.
Proof.
  induction p as [|c p IH]; [by destruct t|].
  change (String c p +:+ t) with (String c (p +:+ t)).
  cbn [String.length replace_from]. exact IH.
Qed.

Section ReplaceInside.

Variables (o new : string).
Hypothesis o_dotfree : all_chars not_dot o = true.

Let old : string := String "." o.

(** Characters that are not dots are copied. *)
Lemma replace_dotfree_app (a t : string) :
  all_chars not_dot a = true →
  replace_from old new 0 (a +:+ t) = a +:+ replace_from old new 0 t.
Proof.
  induction a as [|c a IH]; [done|].
  cbn [all_chars]. intros [Hc Ha]%andb_true_iff.
  change (String c a +:+ t) with (String c (a +:+ t)).
  cbn [replace_from]. unfold old at 1. cbn [String.prefix].
  destruct (ascii_dec "." c) as [<-|_]; [discriminate Hc|].
  by rewrite IH.
Qed.

(** An occurrence is replaced and the scan goes on behind it. *)
Lemma replace_occurrence (t : string) :
  replace_from old new 0 (old +:+ t) = new +:+ replace_from old new 0 t.
Proof.
  unfold old. change (String "." o +:+ t) with (String "." (o +:+ t)).
  destruct (replace_step o new o_dotfree "." (o +:+ t)) as [-> _].
  - apply (prefix_app (String "." o) t).
  - by rewrite replace_from_skip_prefix.
Qed.

(** A dot that does not start an occurrence is copied. *)
Lemma replace_other_dot (t : string) :
  String.prefix old (String "." t) = false →
  replace_from old new 0 (String "." t) = String "." (replace_from old new 0 t).
Proof. intros Hp. cbn [replace_from]. by rewrite Hp. Qed.

End ReplaceInside.

(** X9: the two replacements are not limited to the end of the name: a
    ".webm" or ".mkv" that follows a part without dots becomes ".mp4"
    wherever it stands, and the rest of the name is treated the same way. *)
Theorem mp4_filename_inside (a b : string) :
  all_chars not_dot a = true →
  mp4_filename (a +:+ ".webm" +:+ b) = a +:+ ".mp4" +:+ mp4_filename b ∧
  mp4_filename (a +:+ ".mkv" +:+ b) = a +:+ ".mp4" +:+ mp4_filename b.
Proof.
  intros Ha. unfold mp4_filename, py_replace. split.
  - rewrite (replace_dotfree_app "webm" ".mp4" a _ Ha).
    rewrite (replace_occurrence "webm" ".mp4" eq_refl b).
    rewrite (replace_dotfree_app "mkv" ".mp4" a _ Ha). reflexivity.
  - rewrite (replace_dotfree_app "webm" ".mp4" a _ Ha).
    change (".mkv" +:+ b) with (String "." ("mkv" +:+ b)).
    rewrite (replace_other_dot "webm" ".mp4") by reflexivity.
    rewrite (replace_dotfree_app "webm" ".mp4" "mkv" _ eq_refl).
    rewrite (replace_dotfree_app "mkv" ".mp4" a _ Ha). f_equal.
    apply (replace_occurrence "mkv" ".mp4" eq_refl).
Qed.

Lemma mp4_filename_inside_witness :
  mp4_filename ("talk" +:+ ".webm" +:+ ".part") = "talk" +:+ ".mp4" +:+ mp4_filename ".part" ∧
  mp4_filename ("talk" +:+ ".mkv" +:+ ".part") = "talk" +:+ ".mp4" +:+ mp4_filename ".part".
Proof. apply (mp4_filename_inside "talk" ".part"). reflexivity. Defined.

(** X10: a name made of a part without dots, a dot and an extension
    without dots that does not begin with "webm" or "mkv" is returned by
    a successful download as yt-dlp prepared it: no other extension is
    turned into ".mp4". *)
Theorem download_video_other_extension
    (extract_info : ydl_opts → string → bool → list progress_event * result video_info)
    (prepare_filename : ydl_opts → video_info → string)
    (url quality : string) (tracker tracker' : DownloadProgress)
    (filename : string) (info : video_info) (a e : string) :
  download_video extract_info prepare_filename url quality tracker
    = Ok (filename, info, tracker') →
  prepare_filename (download_opts quality) info = a +:+ String "." e →
  all_chars not_dot a = true →
  all_chars not_dot e = true →
  String.prefix "webm" e = false →
  String.prefix "mkv" e = false →
  filename = a +:+ String "." e.
Proof.
  intros Hrun Hname Ha He Hwebm Hmkv.
  rewrite (download_video_filename _ _ _ _ _ _ _ _ Hrun), Hname.
  unfold mp4_filename, py_replace.
  rewrite (replace_dotfree_app "webm" ".mp4" a _ Ha).
  rewrite (replace_other_dot "webm" ".mp4")
    by (cbn [String.prefix]; by destruct (ascii_dec "." ".")).
  rewrite (replace_dotfree "webm" ".mp4" e He).
  rewrite (replace_dotfree_app "mkv" ".mp4" a _ Ha).
  rewrite (replace_other_dot "mkv" ".mp4")
    by (cbn [String.prefix]; by destruct (ascii_dec "." ".")).
  by rewrite (replace_dotfree "mkv" ".mp4" e He).
Qed.

Lemma download_video_other_extension_witness :
  "clip.3gp" = "clip" +:+ String "." "3gp".
Proof.
  apply (download_video_other_extension
           (λ _ _ _, ([], Ok (mkVideoInfo (Some "clip") None None None None None)))
           (λ _ i, get (title i) "" +:+ ".3gp")
           "https://example.org/watch?v=1" "best"
           DownloadProgress_new DownloadProgress_new "clip.3gp"
           (mkVideoInfo (Some "clip") None None None None None));
    vm_compute; reflexivity.
Defined.

(** ** Further properties of the format catalogue *)

Lemma qualifies_iff (g : raw_format) (h : Z) :
  qualifies g h ↔
  vcodec g ≠ Some "none" ∧ height g = Some h ∧ h ≠ 0 ∧ h ≤ 1080.
Proof.
  unfold qualifies, has_video. split.
  - intros (Hv & Hh & Hle). rewrite Hh in Hv.
    apply andb_true_iff in Hv as [Hc Hz].
    apply negb_true_iff, bool_decide_eq_false in Hc.
    apply negb_true_iff, Z.eqb_neq in Hz. done.
  - intros (Hc & Hh & Hz & Hle). rewrite Hh. split; [|done].
    apply andb_true_iff. split.
    + by apply negb_true_iff, bool_decide_eq_false.
    + by apply negb_true_iff, Z.eqb_neq.
Qed.

(** The catalogue with the heights of its entries, in the order of the
    entries. *)
Lemma catalogue_labels (info : video_info) :
  ∃ (out : list format_option) (hs : list Z),
    get_available_formats info = Ok out ∧
    quality <$> out = (λ h, py_str h +:+ "p") <$> hs ∧
    NoDup hs ∧
    StronglySorted (λ a b, b ≤ a) hs ∧
    (∀ h, h ∈ hs ↔ ∃ g, g ∈ get (formats info) [] ∧ qualifies g h) ∧
    (∀ o, o ∈ out ↔
          ∃ i f h, kept_at (get (formats info) []) i f h ∧ o = format_entry f h).
Proof.
  destruct (get_available_formats_sorted info)
    as (kept & sorted & Hout & Hperm & Hsorted & Hnd & Hseen & Hkept).
  assert (Hhs : sorted.*1 ≡ₚ kept.*2).
  { rewrite Hperm, <- list_fmap_compose. done. }
  exists sorted.*2, sorted.*1. split; [exact Hout|]. split; [|split; [|split; [|split]]].
  - rewrite <- !list_fmap_compose. apply Forall_fmap_ext_1.
    rewrite Hperm. apply Forall_fmap, Forall_forall. by intros [f h] _.
  - by rewrite Hhs.
  - eapply StronglySorted_fmap; [|exact Hsorted]. done.
  - intros h. rewrite Hhs. apply Hseen.
  - intros o. rewrite list_elem_of_fmap. split.
    + intros ([k o'] & -> & Hin). rewrite Hperm in Hin.
      apply list_elem_of_fmap in Hin as ([f h] & [= -> ->] & Hin).
      apply Hkept in Hin as [i Hi]. by exists i, f, h.
    + intros (i & f & h & Hat & ->). exists (h, format_entry f h). split; [done|].
      rewrite Hperm. apply list_elem_of_fmap. exists (f, h). split; [done|].
      apply Hkept. eauto.
Qed.

(** X11: a height is in the catalogue exactly when some entry of the raw
    list has a video codec other than "none" and that height, the height
    being non-zero and at most 1080.  Entries without a height, with
    height 0, above 1080 or without video add nothing; negative heights
    are let through. *)
Theorem get_available_formats_heights_iff
    (info : video_info) (fs : list raw_format) (h : Z) :
  formats info = Some fs →
  ∃ out : list format_option,
    get_available_formats info = Ok out ∧
    ((∃ o, o ∈ out ∧ emitted_height o h) ↔
     (∃ g, g ∈ fs ∧ vcodec g ≠ Some "none" ∧ height g = Some h ∧
           h ≠ 0 ∧ h ≤ 1080)).
Proof.
  intros Hfs.
  destruct (catalogue_labels info) as (out & hs & Hout & Hlab & _ & _ & Hhs & Hmem).
  rewrite Hfs in Hhs, Hmem. cbn [get] in Hhs, Hmem.
  exists out. split; [exact Hout|]. split.
  - intros (o & Ho & Hh). apply Hmem in Ho as (i & f & k & Hat & ->).
    unfold emitted_height in Hh. rewrite quality_key_format_entry in Hh.
    injection Hh as ->. destruct Hat as (Hl & Hq & _).
    exists f. split; [by eapply list_elem_of_lookup_2|]. by apply qualifies_iff.
  - intros (g & Hg & Hq). apply qualifies_iff in Hq.
    assert (Hin : h ∈ hs) by (apply Hhs; eauto).
    assert (Hmemlab : py_str h +:+ "p" ∈ quality <$> out).
    { rewrite Hlab. by apply (list_elem_of_fmap_2 (λ k, py_str k +:+ "p")). }
    apply list_elem_of_fmap in Hmemlab as (o & Hq' & Ho).
    exists o. split; [exact Ho|].
    unfold emitted_height, quality_key. rewrite <- Hq'.
    by rewrite replace_p_label, py_int_py_str.
Qed.

Lemma get_available_formats_heights_iff_witness :
  ∃ out : list format_option,
    get_available_formats
      (mkVideoInfo None None None None None
         (Some [ mkRawFormat (Some "none") (Some 480) None (Some "m4a") None;
                 mkRawFormat (Some "avc1") (Some 480) None (Some "mp4") None ]))
      = Ok out ∧
    ((∃ o, o ∈ out ∧ emitted_height o 480) ↔
     (∃ g, g ∈ [ mkRawFormat (Some "none") (Some 480) None (Some "m4a") None;
                 mkRawFormat (Some "avc1") (Some 480) None (Some "mp4") None ] ∧
           vcodec g ≠ Some "none" ∧ height g = Some 480 ∧ 480 ≠ 0 ∧ 480 ≤ 1080)).
Proof. apply get_available_formats_heights_iff. reflexivity. Defined.

(** X12: the first occurrence of a height wins: every entry of the
    catalogue is built from an entry of the raw list that has a video
    track and a height of at most 1080 and that no earlier such entry
    shares its height with; its container is that entry's extension in
    upper case and its note that entry's format note. *)
Theorem get_available_formats_first_wins
    (info : video_info) (fs : list raw_format) :
  formats info = Some fs →
  ∃ out : list format_option,
    get_available_formats info = Ok out ∧
    ∀ o, o ∈ out →
      ∃ i f h, kept_at fs i f h ∧
        quality o = py_str h +:+ "p" ∧
        format o = py_upper (get (ext f) "") ∧
        note o = get (format_note f) "".
Proof.
  intros Hfs.
  destruct (catalogue_labels info) as (out & hs & Hout & _ & _ & _ & _ & Hmem).
  rewrite Hfs in Hmem. cbn [get] in Hmem.
  exists out. split; [exact Hout|]. intros o Ho.
  apply Hmem in Ho as (i & f & h & Hat & ->). by exists i, f, h.
Qed.

Lemma get_available_formats_first_wins_witness :
  ∃ out : list format_option,
    get_available_formats
      (mkVideoInfo None None None None None
         (Some [ mkRawFormat (Some "avc1") (Some 720) (Some "hd") (Some "mp4") None;
                 mkRawFormat (Some "vp9") (Some 720) (Some "hd60") (Some "webm") None ]))
      = Ok out ∧
    ∀ o, o ∈ out →
      ∃ i f h,
        kept_at [ mkRawFormat (Some "avc1") (Some 720) (Some "hd") (Some "mp4") None;
                  mkRawFormat (Some "vp9") (Some 720) (Some "hd60") (Some "webm") None ]
          i f h ∧
        quality o = py_str h +:+ "p" ∧
        format o = py_upper (get (ext f) "") ∧
        note o = get (format_note f) "".
Proof. apply get_available_formats_first_wins. reflexivity. Defined.

(** X13: the quality labels of the catalogue do not depend on the order
    of the raw list: two raw lists that are permutations of each other
    give the same labels in the same order (which entry supplies the
    container and the size of a label may differ). *)
Theorem get_available_formats_labels_order_free
    (info info' : video_info) (fs fs' : list raw_format) :
  formats info = Some fs →
  formats info' = Some fs' →
  fs ≡ₚ fs' →
  ∃ out out' : list format_option,
    get_available_formats info = Ok out ∧
    get_available_formats info' = Ok out' ∧
    quality <$> out = quality <$> out'.
Proof.
  intros Hfs Hfs' Hperm.
  destruct (catalogue_labels info) as (out & hs & Hout & Hlab & Hnd & Hs & Hhs & _).
  destruct (catalogue_labels info')
    as (out' & hs' & Hout' & Hlab' & Hnd' & Hs' & Hhs' & _).
  rewrite Hfs in Hhs. rewrite Hfs' in Hhs'. cbn [get] in Hhs, Hhs'.
  exists out, out'. split; [exact Hout|]. split; [exact Hout'|].
  rewrite Hlab, Hlab'. f_equal.
  assert (Hanti : AntiSymm (=) (λ a b : Z, b ≤ a)) by (intros a b ? ?; lia).
  apply (StronglySorted_unique (λ a b : Z, b ≤ a)); [exact Hs | exact Hs' |].
  apply NoDup_Permutation; [exact Hnd | exact Hnd' |].
  intros h. rewrite Hhs, Hhs'.
  split; intros (g & Hg & Hq); exists g; split; try exact Hq.
  - by rewrite <- Hperm.
  - by rewrite Hperm.
Qed.

Lemma get_available_formats_labels_order_free_witness :
  ∃ out out' : list format_option,
    get_available_formats
      (mkVideoInfo None None None None None
         (Some [ mkRawFormat (Some "avc1") (Some 360) None (Some "mp4") None;
                 mkRawFormat (Some "vp9") (Some 720) None (Some "webm") None ]))
      = Ok out ∧
    get_available_formats
      (mkVideoInfo None None None None None
         (Some [ mkRawFormat (Some "vp9") (Some 720) None (Some "webm") None;
                 mkRawFormat (Some "avc1") (Some 360) None (Some "mp4") None ]))
      = Ok out' ∧
    quality <$> out = quality <$> out'.
Proof.
  eapply get_available_formats_labels_order_free;
    [reflexivity | reflexivity | apply Permutation_swap].
Defined.

Lemma omap_length_le {A B : Type} (f : A → option B) (l : list A) :
  (length (omap f l) ≤ length l)%nat.
Proof.
  induction l as [|a l IH]; [done|].
  cbn [omap list_omap]. change (list_omap _ _ f l) with (omap f l).
  destruct (f a); cbn [length]; lia.
Qed.

(** X14: the catalogue is never longer than the raw list it is built
    from. *)
Theorem get_available_formats_length
    (info : video_info) (fs : list raw_format) :
  formats info = Some fs →
  ∃ out : list format_option,
    get_available_formats info = Ok out ∧
    (length out ≤ length fs)%nat.
Proof.
  intros Hfs.
  destruct (catalogue_labels info) as (out & hs & Hout & Hlab & Hnd & _ & Hhs & _).
  rewrite Hfs in Hhs. cbn [get] in Hhs.
  exists out. split; [exact Hout|].
  apply (f_equal length) in Hlab. rewrite !length_fmap in Hlab. rewrite Hlab.
  etrans; [|apply (omap_length_le height fs)].
  apply submseteq_length, NoDup_submseteq; [exact Hnd|].
  intros h Hh. apply Hhs in Hh as (g & Hg & _ & Hh & _).
  apply list_elem_of_omap. eauto.
Qed.

Lemma get_available_formats_length_witness :
  ∃ out : list format_option,
    get_available_formats
      (mkVideoInfo None None None None None
         (Some [ mkRawFormat (Some "avc1") (Some 720) None (Some "mp4") None;
                 mkRawFormat (Some "vp9") (Some 720) None (Some "webm") None ]))
      = Ok out ∧
    (length out ≤ 2)%nat.
Proof.
  apply (get_available_formats_length _
    [ mkRawFormat (Some "avc1") (Some 720) None (Some "mp4") None;
      mkRawFormat (Some "vp9") (Some 720) None (Some "webm") None ]).
  reflexivity.
Defined.

(** X15: whatever the page offers for selection - "best" or the label of
    a catalogue entry - makes [download_video] build a selector of the
    same shape whose height cap is at most 1080. *)
Theorem quality_options_selector
    (info : video_info) (out : list format_option) (q : string) :
  get_available_formats info = Ok out →
  q ∈ quality_options out →
  ∃ h : Z,
    h ≤ 1080 ∧
    opt_format (download_opts q)
    = "bestvideo[height<=" +:+ py_str h +:+ "]+bestaudio/best[height<="
        +:+ py_str h +:+ "]".
Proof.
  intros Hout Hq.
  destruct (catalogue_labels info) as (out' & hs & Hout' & Hlab & _ & _ & Hhs & _).
  assert (out' = out) as -> by congruence.
  unfold quality_options in Hq. apply elem_of_cons in Hq as [-> | Hq].
  - exists 1080. split; [lia | reflexivity].
  - rewrite Hlab in Hq. apply list_elem_of_fmap in Hq as (h & -> & Hh).
    apply Hhs in Hh as (g & _ & _ & _ & Hle).
    exists h. split; [exact Hle|].
    cbn [download_opts opt_format]. unfold format_selector.
    by rewrite label_not_best, replace_p_label.
Qed.

Lemma quality_options_selector_witness :
  ∃ h : Z,
    h ≤ 1080 ∧
    opt_format (download_opts "720p")
    = "bestvideo[height<=" +:+ py_str h +:+ "]+bestaudio/best[height<="
        +:+ py_str h +:+ "]".
Proof.
  apply (quality_options_selector
    (mkVideoInfo None None None None None
       (Some [ mkRawFormat (Some "avc1") (Some 720) None (Some "mp4") None ]))
    [ {| quality := "720p"; format := "MP4"; note := ""; size := "" |} ]).
  - vm_compute. reflexivity.
  - vm_compute. right. left.
Defined.

(** ** The columns of the format display *)

Lemma write_columns_spec (texts : list string) :
  ∀ (cols : list (list string)) (i : nat),
    (∀ k, (k < length texts)%nat → ((i + k) mod 4 < length cols)%nat) →
    ∃ cols',
      write_columns cols i texts = Some cols' ∧
      length cols' = length cols ∧
      (∀ j col, cols !! j = Some col →
         ∃ col', cols' !! j = Some col' ∧ ∀ t, t ∈ col → t ∈ col') ∧
      (∀ k t, texts !! k = Some t →
         ∃ col', cols' !! ((i + k) mod 4)%nat = Some col' ∧ t ∈ col').
Proof.
  induction texts as [|text texts IH]; intros cols i Hrange.
  - exists cols. split; [done|]. split; [done|]. split.
    + intros j col Hj. eauto.
    + intros k t Hk. rewrite lookup_nil in Hk. discriminate.
  - assert (Hi : (i mod 4 < length cols)%nat).
    { specialize (Hrange 0%nat). rewrite Nat.add_0_r in Hrange.
      apply Hrange. simpl. lia. }
    destruct (lookup_lt_is_Some_2 cols _ Hi) as [col Hcol].
    cbn [write_columns]. unfold write_column. rewrite Hcol. cbn [mbind option_bind].
    set (cols1 := <[(i mod 4)%nat := col ++ [text]]> cols).
    assert (Hlen1 : length cols1 = length cols) by apply length_insert.
    destruct (IH cols1 (S i)) as (cols' & Hrun & Hlen & Hmono & Hplace).
    { intros k Hk. rewrite Hlen1. replace (S i + k)%nat with (i + S k)%nat by lia.
      apply Hrange. simpl. lia. }
    assert (Hmono1 : ∀ j c, cols !! j = Some c →
              ∃ c1, cols1 !! j = Some c1 ∧ ∀ t, t ∈ c → t ∈ c1).
    { intros j c Hj. destruct (decide (j = (i mod 4)%nat)) as [->|Hne].
      - exists (col ++ [text]). split.
        + unfold cols1. by apply list_lookup_insert_eq.
        + intros t Ht. rewrite Hcol in Hj. injection Hj as ->.
          apply elem_of_app. by left.
      - exists c. split; [|done]. unfold cols1.
        by rewrite list_lookup_insert_ne. }
    exists cols'. split; [exact Hrun|]. split; [congruence|]. split.
    + intros j c Hj. destruct (Hmono1 j c Hj) as (c1 & Hc1 & Hsub).
      destruct (Hmono j c1 Hc1) as (c' & Hc' & Hsub').
      exists c'. split; [exact Hc'|]. auto.
    + intros [|k] t Hk.
      * injection Hk as <-. rewrite Nat.add_0_r.
        destruct (Hmono (i mod 4)%nat (col ++ [text])) as (c' & Hc' & Hsub).
        { unfold cols1. by apply list_lookup_insert_eq. }
        exists c'. split; [exact Hc'|]. apply Hsub, elem_of_app. right.
        by apply list_elem_of_singleton.
      * replace (i + S k)%nat with (S i + k)%nat by lia.
        by apply Hplace.
Qed.

(** X16: drawing the catalogue never indexes a column that does not
    exist: there are [min(len(formats), 4)] columns, and the text of the
    entry at position [i] is written into column [i % 4], which is one
    of them. *)
Theorem show_formats_in_range (formats : list format_option) :
  ∃ cols : list (list string),
    show_formats formats = Some cols ∧
    length cols = Nat.min (length formats) 4 ∧
    ∀ i fmt, formats !! i = Some fmt →
      ∃ col, cols !! (i mod 4)%nat = Some col ∧ format_display_text fmt ∈ col.
Proof.
  destruct formats as [|fmt0 formats'].
  - exists []. split; [done|]. split; [done|].
    intros i fmt Hi. rewrite lookup_nil in Hi. discriminate.
  - set (formats := fmt0 :: formats'). unfold show_formats. fold formats.
    destruct (write_columns_spec (format_display formats)
                (replicate (Nat.min (length formats) 4) []) 0)
      as (cols & Hrun & Hlen & _ & Hplace).
    { intros k Hk. unfold format_display in Hk.
      rewrite length_fmap in Hk. rewrite length_replicate. cbn [Nat.add].
      destruct (decide (4 ≤ length formats)%nat).
      - rewrite Nat.min_r by done. apply Nat.mod_upper_bound. done.
      - rewrite Nat.min_l by lia. rewrite Nat.mod_small by lia. done. }
    exists cols. split; [exact Hrun|]. split.
    + by rewrite Hlen, length_replicate.
    + intros i fmt Hi. apply (Hplace i). unfold format_display.
      by rewrite list_lookup_fmap, Hi.
Qed.

(** ** Further properties of the display helpers *)







Lemma format_time_positive (s : Z) :
  0 < s →
  format_time s
  = if 0 <? s / 60 / 60
    then fmt_02d (s / 60 / 60) +:+ ":" +:+ fmt_02d (s / 60 mod 60)
           +:+ ":" +:+ fmt_02d (s mod 60)
    else fmt_02d (s / 60 mod 60) +:+ ":" +:+ fmt_02d (s mod 60).
Proof.
  intros Hs. unfold format_time.
  destruct (Z.leb_spec s 0); [lia | reflexivity].
Qed.



Lemma fmt_02d_head (n : Z) :
  ∃ c s, fmt_02d n = String c s ∧ is_sign_or_digit c = true.
Proof.
  unfold fmt_02d. destruct ((0 <=? n) && (n <? 10)).
  - by exists "0"%char, (py_str n).
  - apply py_str_head.
Qed.

(** X18: "Unknown" is shown exactly for a duration that is zero or
    negative; a positive duration always shows as digits. *)
Theorem format_time_unknown_iff (s : Z) :
  format_time s = "Unknown" ↔ s ≤ 0.
Proof.
  split.
  - intros Hfmt. destruct (Z.le_gt_cases s 0) as [Hle|Hgt]; [exact Hle|].
    rewrite format_time_positive in Hfmt by lia. exfalso.
    destruct (0 <? s / 60 / 60).
    + destruct (fmt_02d_head (s / 60 / 60)) as (c & r & Hhead & Hc).
      rewrite Hhead in Hfmt. injection Hfmt as -> _. discriminate Hc.
    + destruct (fmt_02d_head (s / 60 mod 60)) as (c & r & Hhead & Hc).
      rewrite Hhead in Hfmt. injection Hfmt as -> _. discriminate Hc.
  - intros Hle. unfold format_time.
    destruct (Z.leb_spec s 0); [reflexivity | lia].
Qed.





(** ** The status across a run of events *)

Lemma progress_hook_status (d : progress_event) (tracker : DownloadProgress) :
  ∃ tracker',
    progress_hook d tracker = Ok tracker' ∧
    status tracker'
    = if decide (known_status (d_status d)) then d_status d else status tracker.
Proof.
  unfold known_status.
  destruct (String.eqb_spec (d_status d) "downloading") as [Hst|Hst].
  - rewrite progress_hook_downloading by exact Hst.
    eexists. split; [reflexivity|]. rewrite Hst. reflexivity.
  - unfold progress_hook. apply String.eqb_neq in Hst. rewrite Hst.
    apply String.eqb_neq in Hst.
    destruct (String.eqb_spec (d_status d) "finished") as [->|Hf];
      [eexists; split; reflexivity|].
    destruct (String.eqb_spec (d_status d) "error") as [->|He];
      [eexists; split; reflexivity|].
    eexists. split; [reflexivity|].
    rewrite decide_False; [reflexivity|].
    rewrite !elem_of_cons, elem_of_nil. tauto.
Qed.

(** X21: after any run of progress events the status is the status of
    the last event that was "downloading", "finished" or "error", and
    the status the tracker started with when there was none; so the
    status is never set to anything but these three, and a later
    "downloading" event takes a finished or failed tracker back to
    "downloading". *)
Theorem report_progress_status
    (events : list progress_event) (tracker : DownloadProgress) :
  ∃ tracker',
    report_progress [progress_hook] events tracker = Ok tracker' ∧
    status tracker'
    = default (status tracker) (last (filter known_status (d_status <$> events))).
Proof.
  induction events as [|d events IH] using rev_ind.
  - by exists tracker.
  - destruct IH as (t & Hrun & Hst).
    rewrite report_progress_snoc, Hrun. cbn [mbind result_bind].
    destruct (progress_hook_status d t) as (t' & -> & Hst').
    exists t'. split; [reflexivity|].
    rewrite Hst', fmap_app, filter_app. cbn [fmap list_fmap].
    rewrite filter_cons, filter_nil.
    destruct (decide (known_status (d_status d))).
    + by rewrite last_snoc.
    + by rewrite app_nil_r.
Qed.
